(** * claude_client.py: a shallow embedding

    The script reads one command-line argument, looks the credential up in
    the process environment, sends one request through the vendor SDK and
    prints the text of the first content block of the answer.

    The embedding keeps the effects of the script explicit: a world with the
    environment, the two output streams and a log of the interactions with
    the environment and with the SDK, threaded through a small state and
    exception monad. The SDK call, the codec of standard output and the
    stack lines of the interpreter are parameters. *)

From stdpp Require Import gmap strings list fin_maps.
From Stdlib Require Import ZArith.

Set Warnings "-register-all".
Open Scope string_scope.

(** ** Python values that occur as keyword arguments of the request *)

Inductive value :=
| VStr (s : string)
| VInt (z : Z)
| VList (l : list value)
| VDict (d : list (string * value)).

(** Keyword arguments of a call, in the order the call site writes them. *)
Definition kwargs := list (string * value).

(** ** The answer of the SDK *)

(** A content block of the answer: a text block carries the attribute
    [text]; the other block kinds of the SDK (tool use and the like) do
    not. *)
Inductive ContentBlock :=
| TextBlock (text : string)
| OtherBlock (kind : string).

Record Message := { content : list ContentBlock }.

(** What the SDK raises when the call fails: class name and message. *)
Record APIError := { err_class : string; err_msg : string }.

(** ** Exceptions of the script *)

Inductive exn :=
| ValueError (msg : string)
| IndexError (msg : string)
| AttributeError (msg : string)
| SystemExit (code : Z)
| UnicodeEncodeError (msg : string)
| SDKError (e : APIError).

(** ** The world *)

Inductive event :=
| EnvGet (name : string)
| NewClient (api_key : string)
| MessagesCreate (api_key : string) (kw : kwargs).

Record World := {
  environ : gmap string string;
  stdout : string;
  stderr : string;
  log : list event
}.

Definition nl : string := String (Ascii.ascii_of_nat 10) EmptyString.

(** ** State and exception monad *)

Definition Py (A : Type) : Type := World -> (exn + A) * World.

Definition ret {A} (a : A) : Py A := fun w => (inr a, w).

Definition raise {A} (e : exn) : Py A := fun w => (inl e, w).

Definition bind {A B} (m : Py A) (k : A -> Py B) : Py B :=
  fun w =>
    match m w with
    | (inl e, w') => (inl e, w')
    | (inr a, w') => k a w'
    end.

Notation "x <- m ;; k" := (bind m (fun x => k))
  (at level 100, m at next level, right associativity).
Notation "m ;;; k" := (bind m (fun _ => k))
  (at level 100, right associativity).

Definition emit (ev : event) : Py unit :=
  fun w => (inr tt, {| environ := environ w; stdout := stdout w;
                       stderr := stderr w; log := log w ++ [ev] |}).

(** [os.environ.get(name)] *)
Definition environ_get (name : string) : Py (option string) :=
  emit (EnvGet name) ;;;
  fun w => (inr (environ w !! name), w).

(** Text is a string of characters; those from 128 on stand for the
    characters outside ASCII. *)
Definition is_ascii (s : string) : bool :=
  forallb (fun c => Nat.ltb (Ascii.nat_of_ascii c) 128)
          (String.list_ascii_of_string s).

(** The codec of standard output, fixed when the interpreter starts:
    [codec s] is [None] when it encodes the text [s], and the message of
    the encoding error otherwise. Every codec encodes ASCII text. *)
Definition encode_error (codec : string -> option string) (s : string)
  : option string :=
  if is_ascii s then None else codec s.

(** [print(s)]: the text and one newline on standard output; when the
    codec of standard output cannot encode the text, nothing is written
    and [UnicodeEncodeError] is raised. *)
Definition print (codec : string -> option string) (s : string) : Py unit :=
  fun w =>
    match encode_error codec s with
    | None =>
        (inr tt, {| environ := environ w; stdout := stdout w +:+ s +:+ nl;
                    stderr := stderr w; log := log w |})
    | Some msg => (inl (UnicodeEncodeError msg), w)
    end.

(** [sys.exit(code)] *)
Definition sys_exit {A} (code : Z) : Py A := raise (SystemExit code).

(** [l[i]] on a Python list *)
Definition index {A} (l : list A) (i : nat) : Py A :=
  match l !! i with
  | Some x => ret x
  | None => raise (IndexError "list index out of range")
  end.

(** [block.text] *)
Definition get_text (b : ContentBlock) : Py string :=
  match b with
  | TextBlock t => ret t
  | OtherBlock k =>
      raise (AttributeError ("'" +:+ k +:+ "' object has no attribute 'text'"))
  end.

(** ** The script *)

Section Script.

(** The collaborator behind [client.messages.create], as the script
    meets it: given the credential the client was built with and the
    keyword arguments of the call, the call returns a message or raises.
    One call stands for all the SDK does inside it; the requests it sends
    and sends again under its default retry policy, and what the SDK
    itself writes to the diagnostic stream meanwhile, are not part of the
    model. *)
Variable create : string -> kwargs -> APIError + Message.

(** The codec of standard output. *)
Variable codec : string -> option string.

(** The stack lines the interpreter prints for an uncaught exception
    (file names, line numbers and quoted source lines); they name the
    script file as the program was started, [sys.argv[0]]. *)
Variable stack_text : string -> exn -> string.

(** [anthropic.Anthropic(api_key=...)]: the client is built with the
    credential and the defaults of the SDK for everything else; building
    it does no network activity. The client is modelled by the credential
    it holds. *)
Definition Anthropic (api_key : string) : Py string :=
  emit (NewClient api_key) ;;; ret api_key.

Definition messages_create (client : string) (kw : kwargs) : Py Message :=
  emit (MessagesCreate client kw) ;;;
  match create client kw with
  | inl e => raise (SDKError e)
  | inr m => ret m
  end.

Definition request (prompt : string) : kwargs :=
  [ ("model", VStr "claude-sonnet-4-20250514");
    ("max_tokens", VInt 4096);
    ("messages", VList [ VDict [ ("role", VStr "user");
                                 ("content", VStr prompt) ] ]) ].

Definition generate_code (prompt : string) : Py string :=
  api_key <- environ_get "ANTHROPIC_API_KEY" ;;
  match api_key with
  | None => raise (ValueError "ANTHROPIC_API_KEY not set")
  | Some k =>
      if String.eqb k "" then raise (ValueError "ANTHROPIC_API_KEY not set")
      else
        client <- Anthropic k ;;
        message <- messages_create client (request prompt) ;;
        block <- index (content message) 0 ;;
        get_text block
  end.

Definition usage : string := "Usage: claude_client.py <prompt>".

Definition main (argv : list string) : Py unit :=
  if (length argv <? 2)%nat then
    print codec usage ;;; sys_exit 1
  else
    prompt <- index argv 1 ;;
    code <- generate_code prompt ;;
    print codec code.

(** ** The process *)

Definition exn_class (e : exn) : string :=
  match e with
  | ValueError _ => "ValueError"
  | IndexError _ => "IndexError"
  | AttributeError _ => "AttributeError"
  | SystemExit _ => "SystemExit"
  | UnicodeEncodeError _ => "UnicodeEncodeError"
  | SDKError a => err_class a
  end.

Definition exn_msg (e : exn) : string :=
  match e with
  | ValueError m | IndexError m | AttributeError m => m
  | UnicodeEncodeError m => m
  | SystemExit _ => ""
  | SDKError a => err_msg a
  end.

(** The last line of the report of an exception: the class, followed by
    the message when there is one. *)
Definition final_line (class msg : string) : string :=
  if String.eqb msg "" then class else class +:+ ": " +:+ msg.

(** What the interpreter writes for an uncaught exception, in a program
    started as [script]. *)
Definition traceback (script : string) (e : exn) : string :=
  "Traceback (most recent call last):" +:+ nl +:+ stack_text script e
    +:+ final_line (exn_class e) (exn_msg e) +:+ nl.

Record Outcome := {
  out : string;
  err : string;
  status : Z;
  events : list event
}.

Definition start (env : gmap string string) : World :=
  {| environ := env; stdout := ""; stderr := ""; log := [] |}.

(** [run p] is the value of [generate_code p] in a fresh world. *)
Definition run (env : gmap string string) (prompt : string)
  : (exn + string) * World :=
  generate_code prompt (start env).

(** The interpreter runs [main]; a [SystemExit] ends the process with its
    code, any other uncaught exception is reported on the diagnostic
    stream and ends it with status 1. The script file is [sys.argv[0]]. *)
Definition process (env : gmap string string) (argv : list string)
  : Outcome :=
  match main argv (start env) with
  | (inr _, w) =>
      {| out := stdout w; err := stderr w; status := 0;
         events := log w |}
  | (inl (SystemExit c), w) =>
      {| out := stdout w; err := stderr w; status := c;
         events := log w |}
  | (inl e, w) =>
      {| out := stdout w;
         err := stderr w +:+ traceback (hd "" argv) e; status := 1;
         events := log w |}
  end.

End Script.

(** Number of calls of the completion service in a log. *)
Definition is_call (ev : event) : bool :=
  match ev with MessagesCreate _ _ => true | _ => false end.

Definition calls (evs : list event) : nat := length (filter is_call evs).

(** An environment read. *)
Definition is_read (ev : event) : bool :=
  match ev with EnvGet _ => true | _ => false end.

(** [text] occurs in what was written to a stream. *)
Definition written (stream text : string) : Prop :=
  exists pre post, stream = pre +:+ text +:+ post.

(** What was written to a stream ends with [text]. *)
Definition ends_with (stream text : string) : Prop :=
  exists pre, stream = pre +:+ text.

(** Exactly one of three propositions holds. *)
Definition exactly_one (A B C : Prop) : Prop :=
  (A /\ ~ B /\ ~ C) \/ (~ A /\ B /\ ~ C) \/ (~ A /\ ~ B /\ C).

(** The world after the script has only interacted, without output. *)
Definition logged (env : gmap string string) (evs : list event) : World :=
  {| environ := env; stdout := ""; stderr := ""; log := evs |}.

Definition KEY : string := "ANTHROPIC_API_KEY".

Definition not_set : exn := ValueError "ANTHROPIC_API_KEY not set".

Definition out_of_range : exn := IndexError "list index out of range".

(** What [generate_code] makes of the answer of the service. *)
Definition extract (r : APIError + Message) : exn + string :=
  match r with
  | inl e => inl (SDKError e)
  | inr m =>
      match content m with
      | [] => inl out_of_range
      | TextBlock t :: _ => inr t
      | OtherBlock k :: _ =>
          inl (AttributeError ("'" +:+ k +:+ "' object has no attribute 'text'"))
      end
  end.

(** The three interactions of an invocation that reaches the service. *)
Definition delegation (k P : string) : list event :=
  [EnvGet KEY; NewClient k; MessagesCreate k (request P)].

(** The three shapes an outcome of the process takes. *)
Definition usage_outcome : Outcome :=
  {| out := usage +:+ nl; err := ""; status := 1; events := [] |}.

Definition failure (stack_text : string -> exn -> string) (script : string)
    (e : exn) (evs : list event) : Outcome :=
  {| out := ""; err := traceback stack_text script e; status := 1;
     events := evs |}.

Definition success (t : string) (evs : list event) : Outcome :=
  {| out := t +:+ nl; err := ""; status := 0; events := evs |}.

(** The outcome once [generate_code] has returned [t]: printed, or the
    encoding error of [print]. *)
Definition answered (codec : string -> option string)
    (stack_text : string -> exn -> string) (script t : string)
    (evs : list event) : Outcome :=
  match encode_error codec t with
  | None => success t evs
  | Some msg => failure stack_text script (UnicodeEncodeError msg) evs
  end.

(** ** Concrete collaborators for the examples *)

(** A service that answers every request with one fixed text block. *)
Definition haiku_service (_ : string) (_ : kwargs) : APIError + Message :=
  inr {| content := [TextBlock "lines of code at rest"] |}.

(** A service that answers every request with no content block at all. *)
Definition empty_service (_ : string) (_ : kwargs) : APIError + Message :=
  inr {| content := [] |}.

(** An interpreter that prints no stack lines. *)
Definition bare_stack (_ : string) (_ : exn) : string := "".

(** A standard output that encodes every text. *)
Definition full_codec (_ : string) : option string := None.

(** A standard output in ASCII: no text outside ASCII is encoded. *)
Definition ascii_codec (_ : string) : option string :=
  Some "'ascii' codec can't encode character: ordinal not in range(128)".

(** The word with an accented last letter (character 233). *)
Definition cafe : string :=
  "caf" +:+ String (Ascii.ascii_of_nat 233) EmptyString.

(** A service that answers every request with that word. *)
Definition cafe_service (_ : string) (_ : kwargs) : APIError + Message :=
  inr {| content := [TextBlock cafe] |}.

Definition test_env : gmap string string := {[ KEY := "sk-test" ]}.

(** An environment whose credential variable is set to the empty string. *)
Definition blank_env : gmap string string := {[ KEY := "" ]}.

(** A service that fails every request with a connection error. *)
Definition failing_service (_ : string) (_ : kwargs) : APIError + Message :=
  inl {| err_class := "anthropic.APIConnectionError";
         err_msg := "Connection error." |}.

(** A service that answers with the fixed text block and more blocks after
    it. *)
Definition verbose_service (_ : string) (_ : kwargs) : APIError + Message :=
  inr {| content := [TextBlock "lines of code at rest";
                     TextBlock "a second block";
                     OtherBlock "ToolUseBlock"] |}.

(** Two calls of [generate_code] in a row, as a caller importing the
    function would make them. *)
Definition generate_twice (create : string -> kwargs -> APIError + Message)
    (P Q : string) : Py (string * string) :=
  a <- generate_code create P ;;
  b <- generate_code create Q ;;
  ret (a, b).

(** ** Equations of the script *)

Section Equations.

Variable create : string -> kwargs -> APIError + Message.
Variable codec : string -> option string.
Variable stack_text : string -> exn -> string.

Ltac py_unfold :=
  cbv [generate_code main bind ret raise emit environ_get sys_exit
       index get_text Anthropic messages_create start logged
       environ stdout stderr log].

Lemma generate_code_unset env P :
  env !! KEY = None ->
  generate_code create P (start env) = (inl not_set, logged env [EnvGet KEY]).
Proof.
  intros H. py_unfold. change "ANTHROPIC_API_KEY" with KEY.
  rewrite H. reflexivity.
Qed.

Lemma generate_code_empty env P :
  env !! KEY = Some "" ->
  generate_code create P (start env) = (inl not_set, logged env [EnvGet KEY]).
Proof.
  intros H. py_unfold. change "ANTHROPIC_API_KEY" with KEY.
  rewrite H. reflexivity.
Qed.

Lemma generate_code_set env P k :
  env !! KEY = Some k -> k <> "" ->
  generate_code create P (start env) =
    (extract (create k (request P)), logged env (delegation k P)).
Proof.
  intros H Hk. py_unfold. change "ANTHROPIC_API_KEY" with KEY.
  rewrite H. apply String.eqb_neq in Hk. rewrite Hk. cbn [app].
  unfold extract.
  destruct (create k (request P)) as [e | [[ | [t | kd] bs]]]; reflexivity.
Qed.

(** The usage message is ASCII text: every standard output takes it. *)
Lemma usage_encodes : encode_error codec usage = None.
Proof. reflexivity. Qed.

Lemma main_usage argv w :
  (length argv < 2)%nat ->
  main create codec argv w =
    (inl (SystemExit 1),
     {| environ := environ w; stdout := stdout w +:+ usage +:+ nl;
        stderr := stderr w; log := log w |}).
Proof.
  intros H. unfold main. apply Nat.ltb_lt in H. rewrite H.
  unfold bind, print. rewrite usage_encodes. reflexivity.
Qed.

Lemma main_prompt a0 P rest w :
  main create codec (a0 :: P :: rest) w =
    (code <- generate_code create P ;; print codec code) w.
Proof. reflexivity. Qed.

(** *** Outcomes of the process, case by case *)

Lemma process_usage env argv :
  (length argv < 2)%nat ->
  process create codec stack_text env argv = usage_outcome.
Proof.
  intros H. unfold process. rewrite main_usage by exact H. reflexivity.
Qed.

Lemma process_no_key env a0 P rest :
  env !! KEY = None \/ env !! KEY = Some "" ->
  process create codec stack_text env (a0 :: P :: rest) =
    failure stack_text a0 not_set [EnvGet KEY].
Proof.
  intros H. unfold process. rewrite main_prompt. unfold bind.
  destruct H as [H | H].
  - rewrite (generate_code_unset env P H). reflexivity.
  - rewrite (generate_code_empty env P H). reflexivity.
Qed.

Lemma process_key env a0 P rest k :
  env !! KEY = Some k -> k <> "" ->
  process create codec stack_text env (a0 :: P :: rest) =
    match extract (create k (request P)) with
    | inr t => answered codec stack_text a0 t (delegation k P)
    | inl e => failure stack_text a0 e (delegation k P)
    end.
Proof.
  intros H Hk. unfold process. rewrite main_prompt. unfold bind.
  rewrite (generate_code_set env P k H Hk).
  unfold extract, answered, print.
  destruct (create k (request P)) as [e | [[ | [t | kd] bs]]];
    try reflexivity.
  cbn [content logged]. destruct (encode_error codec t); reflexivity.
Qed.

Lemma traceback_nonempty script e : traceback stack_text script e <> "".
Proof. unfold traceback. discriminate. Qed.

(** Every argument list either lacks the prompt or starts with the
    program name and the prompt. *)
Lemma argv_cases (argv : list string) :
  (length argv < 2)%nat \/ exists a0 P rest, argv = a0 :: P :: rest.
Proof.
  destruct argv as [ | a0 [ | P rest]]; cbn; [left; lia | left; lia | ].
  right. eauto.
Qed.

(** The credential is absent, empty, or a non-empty string. *)
Lemma key_cases (env : gmap string string) :
  (env !! KEY = None \/ env !! KEY = Some "")
  \/ exists k, env !! KEY = Some k /\ k <> "".
Proof.
  destruct (env !! KEY) as [k | ]; [ | left; left; reflexivity].
  destruct (decide (k = "")) as [-> | Hk]; [left; right; reflexivity | ].
  right. eauto.
Qed.

Lemma calls_delegation k P : calls (delegation k P) = 1%nat.
Proof. reflexivity. Qed.

Lemma calls_env_only : calls [EnvGet KEY] = 0%nat.
Proof. reflexivity. Qed.

(** What [extract] returns is the text of a text block in first place. *)
Lemma extract_text r t :
  extract r = inr t <->
  exists m bs, r = inr m /\ content m = TextBlock t :: bs.
Proof.
  unfold extract. split.
  - destruct r as [e | m]; [discriminate | ].
    destruct (content m) as [ | [u | kd] bs] eqn:Hc; try discriminate.
    intros H. injection H as ->. eauto.
  - intros (m & bs & -> & Hc). rewrite Hc. reflexivity.
Qed.

(** Every outcome of the process has one of three shapes. *)
Lemma process_cases env argv :
  ((length argv < 2)%nat /\
   process create codec stack_text env argv = usage_outcome)
  \/ (exists e evs,
        (calls evs <= 1)%nat /\
        process create codec stack_text env argv
          = failure stack_text (hd "" argv) e evs)
  \/ (exists a0 P rest k m t bs,
        argv = a0 :: P :: rest /\ env !! KEY = Some k /\ k <> "" /\
        create k (request P) = inr m /\ content m = TextBlock t :: bs /\
        encode_error codec t = None /\
        process create codec stack_text env argv
          = success t (delegation k P)).
Proof.
  destruct (argv_cases argv) as [Hshort | (a0 & P & rest & ->)].
  { left. split; [exact Hshort | apply process_usage, Hshort]. }
  right. destruct (key_cases env) as [Hno | (k & Hk & Hne)].
  { left. exists not_set, [EnvGet KEY]. rewrite calls_env_only.
    split; [lia | apply process_no_key, Hno]. }
  rewrite (process_key env a0 P rest k Hk Hne).
  destruct (extract (create k (request P))) as [e | t] eqn:Hex.
  { left. exists e, (delegation k P). rewrite calls_delegation.
    split; [lia | reflexivity]. }
  unfold answered. destruct (encode_error codec t) as [msg | ] eqn:Henc.
  { left. exists (UnicodeEncodeError msg), (delegation k P).
    rewrite calls_delegation. split; [lia | reflexivity]. }
  right. apply extract_text in Hex as (m & bs & Hm & Hc).
  exists a0, P, rest, k, m, t, bs. repeat split; assumption || reflexivity.
Qed.

End Equations.

(** ** Properties of the script *)

Lemma test_env_key : test_env !! KEY = Some "sk-test".
Proof. apply lookup_singleton_eq. Qed.

Lemma empty_env_key : (∅ : gmap string string) !! KEY = None.
Proof. apply lookup_empty. Qed.

(** C1, as stated: for every non-empty prompt, a non-empty credential and
    a service whose answer starts with a text block [R], the process would
    write [R] and a newline to standard output and end with status 0. It
    does not when standard output cannot encode [R]: with an ASCII
    standard output and an answer with an accented letter, [print] raises
    and the process ends with status 1. *)
Lemma unencodable_answer_fails :
  ~ (fst (run cafe_service test_env "write a haiku") = inr cafe /\
     out (process cafe_service ascii_codec bare_stack test_env
            ["claude_client.py"; "write a haiku"]) = cafe +:+ nl /\
     status (process cafe_service ascii_codec bare_stack test_env
               ["claude_client.py"; "write a haiku"]) = 0%Z).
Proof.
  rewrite (process_key cafe_service ascii_codec bare_stack test_env
             "claude_client.py" "write a haiku" [] "sk-test" test_env_key)
    by discriminate.
  intros (_ & _ & H). discriminate H.
Qed.

(** C1, amended: for a non-empty prompt [P], a non-empty credential in the
    environment and a service whose answer starts with a text block [R],
    [run P] returns exactly [R]; when standard output can encode [R], the
    process writes exactly [R] and one newline to standard output and ends
    with status 0. *)
Theorem prompt_answered create codec stack_text env a0 P k m R bs :
  P <> "" ->
  env !! KEY = Some k -> k <> "" ->
  create k (request P) = inr m ->
  content m = TextBlock R :: bs ->
  encode_error codec R = None ->
  fst (run create env P) = inr R /\
  out (process create codec stack_text env [a0; P]) = R +:+ nl /\
  status (process create codec stack_text env [a0; P]) = 0%Z.
Proof.
  intros _ Henv Hk Hcreate Hcontent Henc.
  unfold run. rewrite (generate_code_set create env P k Henv Hk).
  rewrite (process_key create codec stack_text env a0 P [] k Henv Hk).
  rewrite Hcreate. unfold extract. rewrite Hcontent.
  unfold answered. rewrite Henc. repeat split; reflexivity.
Qed.

Lemma prompt_answered_witness :
  fst (run haiku_service test_env "write a haiku")
    = inr "lines of code at rest" /\
  out (process haiku_service ascii_codec bare_stack test_env
         ["claude_client.py"; "write a haiku"])
    = "lines of code at rest" +:+ nl /\
  status (process haiku_service ascii_codec bare_stack test_env
            ["claude_client.py"; "write a haiku"]) = 0%Z.
Proof.
  apply (prompt_answered haiku_service ascii_codec bare_stack test_env
           "claude_client.py" "write a haiku" "sk-test"
           {| content := [TextBlock "lines of code at rest"] |}
           "lines of code at rest" []).
  - discriminate.
  - exact test_env_key.
  - discriminate.
  - reflexivity.
  - reflexivity.
  - reflexivity.
Defined.
(** C2: with a prompt given, when the credential variable is absent or is
    the empty string, [run P] raises the error "ANTHROPIC_API_KEY not set"
    straight after reading the environment; the service is never called,
    the process ends with a non-zero status, and the outcome is the same
    in the absent and in the empty case. *)
Theorem credential_missing create codec stack_text env a0 P rest :
  env !! KEY = None \/ env !! KEY = Some "" ->
  fst (run create env P) = inl (ValueError "ANTHROPIC_API_KEY not set") /\
  log (snd (run create env P)) = [EnvGet KEY] /\
  calls (events (process create codec stack_text env (a0 :: P :: rest))) = 0%nat /\
  status (process create codec stack_text env (a0 :: P :: rest)) <> 0%Z /\
  process create codec stack_text env (a0 :: P :: rest)
    = process create codec stack_text (delete KEY env) (a0 :: P :: rest) /\
  process create codec stack_text env (a0 :: P :: rest)
    = process create codec stack_text (<[KEY := ""]> env) (a0 :: P :: rest).
Proof.
  intros H.
  assert (Hrun : run create env P = (inl not_set, logged env [EnvGet KEY])).
  { unfold run. destruct H as [H | H].
    - apply generate_code_unset, H.
    - apply generate_code_empty, H. }
  rewrite Hrun.
  rewrite (process_no_key create codec stack_text env a0 P rest H).
  rewrite (process_no_key create codec stack_text (delete KEY env) a0 P rest)
    by (left; apply lookup_delete_eq).
  rewrite (process_no_key create codec stack_text (<[KEY := ""]> env) a0 P rest)
    by (right; apply lookup_insert_eq).
  cbn. repeat split; try reflexivity. discriminate.
Qed.

Lemma credential_missing_witness :
  fst (run haiku_service ∅ "write a haiku")
    = inl (ValueError "ANTHROPIC_API_KEY not set") /\
  log (snd (run haiku_service ∅ "write a haiku")) = [EnvGet KEY] /\
  calls (events (process haiku_service full_codec bare_stack ∅
                   ["claude_client.py"; "write a haiku"])) = 0%nat /\
  status (process haiku_service full_codec bare_stack ∅
            ["claude_client.py"; "write a haiku"]) <> 0%Z /\
  process haiku_service full_codec bare_stack ∅ ["claude_client.py"; "write a haiku"]
    = process haiku_service full_codec bare_stack (delete KEY ∅)
        ["claude_client.py"; "write a haiku"] /\
  process haiku_service full_codec bare_stack ∅ ["claude_client.py"; "write a haiku"]
    = process haiku_service full_codec bare_stack (<[KEY := ""]> ∅)
        ["claude_client.py"; "write a haiku"].
Proof.
  apply (credential_missing haiku_service full_codec bare_stack ∅
           "claude_client.py" "write a haiku" []).
  left. exact empty_env_key.
Defined.

(** C3, as stated: without a prompt argument the usage message would be
    written to the diagnostic stream. It is not: at the invocation with the
    program name alone nothing is written there. *)
Lemma usage_not_on_stderr :
  ~ (calls (events (process haiku_service full_codec bare_stack test_env
                      ["claude_client.py"])) = 0%nat /\
     written (err (process haiku_service full_codec bare_stack test_env
                     ["claude_client.py"])) usage /\
     status (process haiku_service full_codec bare_stack test_env
               ["claude_client.py"]) <> 0%Z).
Proof.
  intros (_ & (pre & post & H) & _).
  cbn in H. destruct pre; discriminate H.
Qed.

(** C3, amended: without a prompt argument the process writes the usage
    message and a newline to standard output, writes nothing to the
    diagnostic stream, ends with status 1, and never calls the service. *)
Theorem usage_on_stdout create codec stack_text env argv :
  (length argv < 2)%nat ->
  out (process create codec stack_text env argv)
    = "Usage: claude_client.py <prompt>" +:+ nl /\
  err (process create codec stack_text env argv) = "" /\
  status (process create codec stack_text env argv) = 1%Z /\
  calls (events (process create codec stack_text env argv)) = 0%nat.
Proof.
  intros H. rewrite (process_usage create codec stack_text env argv H).
  repeat split; reflexivity.
Qed.

Lemma usage_on_stdout_witness :
  out (process haiku_service full_codec bare_stack test_env ["claude_client.py"])
    = "Usage: claude_client.py <prompt>" +:+ nl /\
  err (process haiku_service full_codec bare_stack test_env ["claude_client.py"]) = "" /\
  status (process haiku_service full_codec bare_stack test_env ["claude_client.py"])
    = 1%Z /\
  calls (events (process haiku_service full_codec bare_stack test_env
                   ["claude_client.py"])) = 0%nat.
Proof.
  apply (usage_on_stdout haiku_service full_codec bare_stack test_env
           ["claude_client.py"]).
  cbn. lia.
Defined.

(** C4, evaluated: when the service answers with no content block, the
    unguarded [message.content[0]] raises the interpreter's own
    [IndexError]; the script reports nothing itself, the interpreter
    prints the traceback and ends the process with status 1. *)
Theorem empty_answer_index_error :
  fst (run empty_service test_env "write a haiku")
    = inl (IndexError "list index out of range") /\
  process empty_service full_codec bare_stack test_env
    ["claude_client.py"; "write a haiku"]
    = {| out := "";
         err := traceback bare_stack "claude_client.py" (IndexError "list index out of range");
         status := 1;
         events := delegation "sk-test" "write a haiku" |}.
Proof.
  unfold run.
  rewrite (generate_code_set empty_service test_env "write a haiku" "sk-test"
             test_env_key) by discriminate.
  rewrite (process_key empty_service full_codec bare_stack test_env "claude_client.py"
             "write a haiku" [] "sk-test" test_env_key) by discriminate.
  split; reflexivity.
Qed.

(** C5: for every prompt [P] that reaches the delegation step, the service
    is called exactly once, with exactly three keyword arguments: the
    constant model identifier, a maximum of 4096 tokens, and one message of
    role "user" whose content is [P]. *)
Theorem request_shape create env P k :
  env !! KEY = Some k -> k <> "" ->
  filter is_call (log (snd (run create env P)))
    = [ MessagesCreate k
          [ ("model", VStr "claude-sonnet-4-20250514");
            ("max_tokens", VInt 4096);
            ("messages", VList [ VDict [ ("role", VStr "user");
                                         ("content", VStr P) ] ]) ] ].
Proof.
  intros Henv Hk. unfold run.
  rewrite (generate_code_set create env P k Henv Hk). reflexivity.
Qed.

Lemma request_shape_witness :
  filter is_call (log (snd (run haiku_service test_env "write a haiku")))
    = [ MessagesCreate "sk-test"
          [ ("model", VStr "claude-sonnet-4-20250514");
            ("max_tokens", VInt 4096);
            ("messages", VList [ VDict [ ("role", VStr "user");
                                         ("content", VStr "write a haiku") ] ]) ] ].
Proof.
  apply (request_shape haiku_service test_env "write a haiku" "sk-test").
  - exact test_env_key.
  - discriminate.
Defined.

(** C6, as stated: every invocation would either print one line to
    standard output and end with status 0, or print an error to the
    diagnostic stream and end with a non-zero status. The invocation with
    the program name alone does neither: it ends with status 1 and leaves
    the diagnostic stream empty. *)
Lemma usage_is_neither :
  ~ ((status (process haiku_service full_codec bare_stack test_env
                ["claude_client.py"]) = 0%Z /\
      exists t, out (process haiku_service full_codec bare_stack test_env
                       ["claude_client.py"]) = t +:+ nl)
     \/
     (status (process haiku_service full_codec bare_stack test_env
                ["claude_client.py"]) <> 0%Z /\
      err (process haiku_service full_codec bare_stack test_env
             ["claude_client.py"]) <> "")).
Proof.
  intros [[H _] | [_ H]].
  - discriminate H.
  - apply H. reflexivity.
Qed.

(** C6, amended: every invocation ends in exactly one of three ways. Either
    the process writes the text of the first block of the answer to the
    prompt and one newline to standard output and ends with status 0,
    after one call of [messages.create]; or it writes the usage message to
    standard output and nothing to the diagnostic stream and ends with
    status 1, with no interaction at all; or it writes nothing to standard
    output, the diagnostic stream ends with the report of one uncaught
    exception and the status is 1. The script calls [messages.create] at
    most once and catches no error. *)
Theorem three_outcomes create codec stack_text env argv :
  exactly_one
    (status (process create codec stack_text env argv) = 0%Z /\
     exists a0 P rest k m t bs,
       argv = a0 :: P :: rest /\ env !! KEY = Some k /\ k <> "" /\
       create k (request P) = inr m /\ content m = TextBlock t :: bs /\
       out (process create codec stack_text env argv) = t +:+ nl /\
       calls (events (process create codec stack_text env argv)) = 1%nat)
    (status (process create codec stack_text env argv) = 1%Z /\
     out (process create codec stack_text env argv) = usage +:+ nl /\
     err (process create codec stack_text env argv) = "" /\
     events (process create codec stack_text env argv) = [])
    (status (process create codec stack_text env argv) = 1%Z /\
     out (process create codec stack_text env argv) = "" /\
     exists e,
       ends_with (err (process create codec stack_text env argv))
                 (traceback stack_text (hd "" argv) e))
  /\ (calls (events (process create codec stack_text env argv)) <= 1)%nat.
Proof.
  destruct (process_cases create codec stack_text env argv)
    as [[Hshort ->] | [(e & evs & Hevs & ->) | Hok]].
  - split; [ | cbn; lia]. right; left. cbn.
    split; [intros [H _]; discriminate H | ].
    split; [repeat split; reflexivity | ].
    intros (_ & H & _); discriminate H.
  - split; [ | exact Hevs]. right; right. cbn.
    split; [intros [H _]; discriminate H | ].
    split; [intros (_ & H & _); discriminate H | ].
    repeat split. exists e, "". reflexivity.
  - destruct Hok as (a0 & P & rest & k & m & t & bs &
                     Hargv & Hk & Hne & Hm & Hc & _ & ->).
    split; [ | cbn [success events]; rewrite calls_delegation; lia].
    left. cbn [success status out err events].
    split; [ | split; intros [H _]; discriminate H].
    split; [reflexivity | ].
    exists a0, P, rest, k, m, t, bs. rewrite calls_delegation.
    repeat split; assumption.
Qed.

(** C7: the prompt is taken as it is. For every string [P], the empty
    string included, given as the first argument with a non-empty
    credential, the script calls the service with a message whose content
    is [P]; in particular the empty string does not lead to the usage
    outcome. *)
Theorem prompt_forwarded create codec stack_text env a0 P rest k :
  env !! KEY = Some k -> k <> "" ->
  events (process create codec stack_text env (a0 :: P :: rest))
    = [ EnvGet KEY; NewClient k;
        MessagesCreate k
          [ ("model", VStr "claude-sonnet-4-20250514");
            ("max_tokens", VInt 4096);
            ("messages", VList [ VDict [ ("role", VStr "user");
                                         ("content", VStr P) ] ]) ] ] /\
  process create codec stack_text env (a0 :: "" :: rest) <> usage_outcome /\
  calls (events (process create codec stack_text env (a0 :: "" :: rest))) = 1%nat.
Proof.
  intros Henv Hk.
  rewrite !(process_key create codec stack_text env a0 _ rest k Henv Hk).
  split; [ | split].
  - unfold answered.
    destruct (extract (create k (request P))) as [e | t];
      [ | destruct (encode_error codec t)]; reflexivity.
  - unfold answered.
    destruct (extract (create k (request ""))) as [e | t];
      [ | destruct (encode_error codec t)]; discriminate.
  - unfold answered.
    destruct (extract (create k (request ""))) as [e | t];
      [ | destruct (encode_error codec t)]; reflexivity.
Qed.

Lemma prompt_forwarded_witness :
  events (process haiku_service full_codec bare_stack test_env ["claude_client.py"; ""])
    = [ EnvGet KEY; NewClient "sk-test";
        MessagesCreate "sk-test"
          [ ("model", VStr "claude-sonnet-4-20250514");
            ("max_tokens", VInt 4096);
            ("messages", VList [ VDict [ ("role", VStr "user");
                                         ("content", VStr "") ] ]) ] ] /\
  process haiku_service full_codec bare_stack test_env ["claude_client.py"; ""]
    <> usage_outcome /\
  calls (events (process haiku_service full_codec bare_stack test_env
                   ["claude_client.py"; ""])) = 1%nat.
Proof.
  apply (prompt_forwarded haiku_service full_codec bare_stack test_env
           "claude_client.py" "" [] "sk-test").
  - exact test_env_key.
  - discriminate.
Defined.

(** C8: the credential does not show in the output. For two non-empty
    credentials to which the service answers alike, and the same
    arguments, what the process writes to standard output and to the
    diagnostic stream is the same, and so is its exit status. *)
Theorem credential_not_in_output create codec stack_text env argv k1 k2 :
  k1 <> "" -> k2 <> "" ->
  (forall kw, create k1 kw = create k2 kw) ->
  out (process create codec stack_text (<[KEY := k1]> env) argv)
    = out (process create codec stack_text (<[KEY := k2]> env) argv) /\
  err (process create codec stack_text (<[KEY := k1]> env) argv)
    = err (process create codec stack_text (<[KEY := k2]> env) argv) /\
  status (process create codec stack_text (<[KEY := k1]> env) argv)
    = status (process create codec stack_text (<[KEY := k2]> env) argv).
Proof.
  intros H1 H2 Hsame.
  destruct (argv_cases argv) as [Hshort | (a0 & P & rest & ->)].
  - rewrite !(process_usage create codec stack_text _ argv Hshort).
    repeat split; reflexivity.
  - rewrite (process_key create codec stack_text (<[KEY := k1]> env) a0 P rest k1)
      by (apply lookup_insert_eq || exact H1).
    rewrite (process_key create codec stack_text (<[KEY := k2]> env) a0 P rest k2)
      by (apply lookup_insert_eq || exact H2).
    rewrite (Hsame (request P)).
    unfold answered.
    destruct (extract (create k2 (request P))) as [e | t];
      [ | destruct (encode_error codec t)]; repeat split; reflexivity.
Qed.

Lemma credential_not_in_output_witness :
  out (process haiku_service full_codec bare_stack (<[KEY := "sk-test"]> ∅)
         ["claude_client.py"; "write a haiku"])
    = out (process haiku_service full_codec bare_stack (<[KEY := "sk-other"]> ∅)
             ["claude_client.py"; "write a haiku"]) /\
  err (process haiku_service full_codec bare_stack (<[KEY := "sk-test"]> ∅)
         ["claude_client.py"; "write a haiku"])
    = err (process haiku_service full_codec bare_stack (<[KEY := "sk-other"]> ∅)
             ["claude_client.py"; "write a haiku"]) /\
  status (process haiku_service full_codec bare_stack (<[KEY := "sk-test"]> ∅)
            ["claude_client.py"; "write a haiku"])
    = status (process haiku_service full_codec bare_stack (<[KEY := "sk-other"]> ∅)
                ["claude_client.py"; "write a haiku"]).
Proof.
  apply (credential_not_in_output haiku_service full_codec bare_stack ∅
           ["claude_client.py"; "write a haiku"] "sk-test" "sk-other").
  - discriminate.
  - discriminate.
  - intros kw. reflexivity.
Defined.

(** C9: the check of the prompt argument comes first. Without a prompt
    argument [main] ends by [sys.exit(1)] after printing the usage
    message, whatever the environment holds, and the environment is never
    read: no credential error can arise. *)
Theorem usage_before_credential create codec stack_text env argv :
  (length argv < 2)%nat ->
  fst (main create codec argv (start env)) = inl (SystemExit 1) /\
  (forall name, EnvGet name ∉ events (process create codec stack_text env argv)) /\
  out (process create codec stack_text env argv) = usage +:+ nl /\
  status (process create codec stack_text env argv) = 1%Z /\
  process create codec stack_text env argv = process create codec stack_text ∅ argv.
Proof.
  intros H. rewrite (main_usage create codec argv (start env) H).
  rewrite !(process_usage create codec stack_text _ argv H).
  split; [reflexivity | ]. split; [ | repeat split; reflexivity].
  intros name Hin. cbn in Hin. apply elem_of_nil in Hin. exact Hin.
Qed.

Lemma usage_before_credential_witness :
  fst (main haiku_service full_codec ["claude_client.py"] (start blank_env))
    = inl (SystemExit 1) /\
  (forall name,
     EnvGet name ∉ events (process haiku_service full_codec bare_stack blank_env
                             ["claude_client.py"])) /\
  out (process haiku_service full_codec bare_stack blank_env ["claude_client.py"])
    = usage +:+ nl /\
  status (process haiku_service full_codec bare_stack blank_env ["claude_client.py"]) = 1%Z /\
  process haiku_service full_codec bare_stack blank_env ["claude_client.py"]
    = process haiku_service full_codec bare_stack ∅ ["claude_client.py"].
Proof.
  apply (usage_before_credential haiku_service full_codec bare_stack blank_env
           ["claude_client.py"]).
  cbn. lia.
Defined.

(** C10: arguments after the prompt are ignored. An invocation with
    further arguments has the same outcome (both streams, the exit status
    and the interactions, so also the request) as the invocation with the
    program name and the prompt alone. *)
Theorem extra_arguments_ignored create codec stack_text env a0 P extra :
  process create codec stack_text env (a0 :: P :: extra)
    = process create codec stack_text env [a0; P].
Proof.
  unfold process. rewrite !main_prompt. reflexivity.
Qed.

(** ** Further properties of [generate_code] and of the process *)

(** [generate_code] in any world: the same result as in a fresh world with
    the same environment, the interactions appended to the log. *)
Lemma generate_code_any_world create P w :
  generate_code create P w =
    (fst (run create (environ w) P),
     {| environ := environ w; stdout := stdout w; stderr := stderr w;
        log := log w ++ log (snd (run create (environ w) P)) |}).
Proof.
  destruct (key_cases (environ w)) as [[Hno | Hno] | (k & Hk & Hne)].
  - unfold run. rewrite (generate_code_unset create _ P Hno).
    cbv [generate_code bind ret raise emit environ_get environ stdout stderr
         log]. change "ANTHROPIC_API_KEY" with KEY.
    destruct w as [env o e l]. cbn in Hno |- *. rewrite Hno. reflexivity.
  - unfold run. rewrite (generate_code_empty create _ P Hno).
    cbv [generate_code bind ret raise emit environ_get environ stdout stderr
         log]. change "ANTHROPIC_API_KEY" with KEY.
    destruct w as [env o e l]. cbn in Hno |- *. rewrite Hno. reflexivity.
  - unfold run. rewrite (generate_code_set create _ P k Hk Hne).
    cbv [generate_code bind ret raise emit environ_get environ stdout stderr
         log Anthropic messages_create index get_text].
    change "ANTHROPIC_API_KEY" with KEY.
    destruct w as [env o e l]. cbn in Hk |- *. rewrite Hk.
    apply String.eqb_neq in Hne. rewrite Hne.
    unfold delegation, extract. rewrite <- !app_assoc. cbn [app].
    destruct (create k (request P)) as [a | [[ | [t | kd] bs]]]; reflexivity.
Qed.

(** X1: an error raised by the call of the service is passed on by the
    script as it is. With a non-empty credential, when the call raises
    [e], [run P] raises that same error; the process writes nothing to
    standard output and ends with status 1 after the one call of
    [messages.create]; the diagnostic stream ends with the report of [e],
    whose last
    line is the class of [e], followed by a colon and the message when the
    message is not empty. *)
Theorem service_error_surfaces create codec stack_text env a0 P rest k e :
  env !! KEY = Some k -> k <> "" ->
  create k (request P) = inl e ->
  fst (run create env P) = inl (SDKError e) /\
  out (process create codec stack_text env (a0 :: P :: rest)) = "" /\
  ends_with (err (process create codec stack_text env (a0 :: P :: rest)))
    ("Traceback (most recent call last):" +:+ nl
       +:+ stack_text a0 (SDKError e)
       +:+ (if String.eqb (err_msg e) "" then err_class e
            else err_class e +:+ ": " +:+ err_msg e)
       +:+ nl) /\
  status (process create codec stack_text env (a0 :: P :: rest)) = 1%Z /\
  calls (events (process create codec stack_text env (a0 :: P :: rest)))
    = 1%nat.
Proof.
  intros Henv Hk Hcreate. unfold run.
  rewrite (generate_code_set create env P k Henv Hk).
  rewrite (process_key create codec stack_text env a0 P rest k Henv Hk).
  rewrite Hcreate. cbn [extract failure fst out err status events].
  rewrite calls_delegation. repeat split. exists "". reflexivity.
Qed.

Lemma service_error_surfaces_witness :
  fst (run failing_service test_env "write a haiku")
    = inl (SDKError {| err_class := "anthropic.APIConnectionError";
                       err_msg := "Connection error." |}) /\
  out (process failing_service full_codec bare_stack test_env
         ["claude_client.py"; "write a haiku"]) = "" /\
  ends_with (err (process failing_service full_codec bare_stack test_env
                    ["claude_client.py"; "write a haiku"]))
    ("Traceback (most recent call last):" +:+ nl
       +:+ bare_stack "claude_client.py"
             (SDKError {| err_class := "anthropic.APIConnectionError";
                          err_msg := "Connection error." |})
       +:+ (if String.eqb "Connection error." ""
            then "anthropic.APIConnectionError"
            else "anthropic.APIConnectionError" +:+ ": "
                   +:+ "Connection error.")
       +:+ nl) /\
  status (process failing_service full_codec bare_stack test_env
            ["claude_client.py"; "write a haiku"]) = 1%Z /\
  calls (events (process failing_service full_codec bare_stack test_env
                   ["claude_client.py"; "write a haiku"])) = 1%nat.
Proof.
  apply (service_error_surfaces failing_service full_codec bare_stack
           test_env "claude_client.py" "write a haiku" [] "sk-test"
           {| err_class := "anthropic.APIConnectionError";
              err_msg := "Connection error." |}).
  - exact test_env_key.
  - discriminate.
  - reflexivity.
Defined.

(** X2: only the first content block counts. Two services whose answers to
    the request start with the same block give the same outcome of the
    process, whatever blocks follow. *)
Theorem later_blocks_ignored create1 create2 codec stack_text env a0 P rest k
    m1 m2 b bs1 bs2 :
  env !! KEY = Some k -> k <> "" ->
  create1 k (request P) = inr m1 -> content m1 = b :: bs1 ->
  create2 k (request P) = inr m2 -> content m2 = b :: bs2 ->
  fst (run create1 env P) = fst (run create2 env P) /\
  process create1 codec stack_text env (a0 :: P :: rest)
    = process create2 codec stack_text env (a0 :: P :: rest).
Proof.
  intros Henv Hk H1 Hc1 H2 Hc2. unfold run.
  rewrite (generate_code_set create1 env P k Henv Hk).
  rewrite (generate_code_set create2 env P k Henv Hk).
  rewrite (process_key create1 codec stack_text env a0 P rest k Henv Hk).
  rewrite (process_key create2 codec stack_text env a0 P rest k Henv Hk).
  rewrite H1, H2. unfold extract. rewrite Hc1, Hc2.
  destruct b; split; reflexivity.
Qed.

Lemma later_blocks_ignored_witness :
  fst (run haiku_service test_env "write a haiku")
    = fst (run verbose_service test_env "write a haiku") /\
  process haiku_service full_codec bare_stack test_env
    ["claude_client.py"; "write a haiku"]
    = process verbose_service full_codec bare_stack test_env
        ["claude_client.py"; "write a haiku"].
Proof.
  apply (later_blocks_ignored haiku_service verbose_service full_codec bare_stack
           test_env "claude_client.py" "write a haiku" [] "sk-test"
           {| content := [TextBlock "lines of code at rest"] |}
           {| content := [TextBlock "lines of code at rest";
                          TextBlock "a second block";
                          OtherBlock "ToolUseBlock"] |}
           (TextBlock "lines of code at rest") []
           [TextBlock "a second block"; OtherBlock "ToolUseBlock"]).
  - exact test_env_key.
  - discriminate.
  - reflexivity.
  - reflexivity.
  - reflexivity.
  - reflexivity.
Defined.

(** X3: of the environment the script itself reads only the variable
    ANTHROPIC_API_KEY, and at most once in an invocation; a client is only
    ever built with the non-empty value that was read, and the service is
    only ever called with that client and the request for the prompt in
    [sys.argv[1]]. *)
Theorem only_credential_read create codec stack_text env argv :
  (forall name,
     EnvGet name ∈ events (process create codec stack_text env argv) ->
     name = "ANTHROPIC_API_KEY") /\
  (length (filter is_read (events (process create codec stack_text env argv)))
     <= 1)%nat /\
  (forall k,
     NewClient k ∈ events (process create codec stack_text env argv) ->
     env !! KEY = Some k /\ k <> "") /\
  (forall k kw,
     MessagesCreate k kw ∈ events (process create codec stack_text env argv) ->
     env !! KEY = Some k /\ exists P, argv !! 1%nat = Some P /\ kw = request P).
Proof.
  assert (Hlog : events (process create codec stack_text env argv) = []
                 \/ events (process create codec stack_text env argv)
                      = [EnvGet KEY]
                 \/ exists a0 P rest k,
                      argv = a0 :: P :: rest /\ env !! KEY = Some k /\
                      k <> "" /\
                      events (process create codec stack_text env argv)
                        = delegation k P).
  { destruct (argv_cases argv) as [Hshort | (a0 & P & rest & ->)].
    { left. rewrite (process_usage create codec stack_text env argv Hshort).
      reflexivity. }
    right. destruct (key_cases env) as [Hno | (k & Hk & Hne)].
    { left. rewrite (process_no_key create codec stack_text env a0 P rest Hno).
      reflexivity. }
    right. exists a0, P, rest, k. repeat split; try assumption.
    rewrite (process_key create codec stack_text env a0 P rest k Hk Hne).
    unfold answered.
    destruct (extract (create k (request P))) as [e | t];
      [ | destruct (encode_error codec t)]; reflexivity. }
  destruct Hlog as [-> | [-> | (a0 & P & rest & k & -> & Hk & Hne & ->)]].
  - split; [ | split; [ | split]].
    + intros name Hin. exfalso. eapply not_elem_of_nil; eassumption.
    + replace (length (filter is_read [])) with 0%nat by reflexivity. lia.
    + intros k Hin. exfalso. eapply not_elem_of_nil; eassumption.
    + intros k kw Hin. exfalso. eapply not_elem_of_nil; eassumption.
  - split; [ | split; [ | split]].
    + intros name Hin. apply list_elem_of_singleton in Hin.
      injection Hin as ->. reflexivity.
    + replace (length (filter is_read [EnvGet KEY])) with 1%nat
        by reflexivity. lia.
    + intros k Hin. apply list_elem_of_singleton in Hin. discriminate Hin.
    + intros k kw Hin. apply list_elem_of_singleton in Hin. discriminate Hin.
  - unfold delegation. split; [ | split; [ | split]].
    + intros name Hin.
      repeat (apply elem_of_cons in Hin as [Hin | Hin]; try discriminate Hin).
      * injection Hin as ->. reflexivity.
      * exfalso. eapply not_elem_of_nil; eassumption.
    + replace (length (filter is_read
                 [EnvGet KEY; NewClient k; MessagesCreate k (request P)]))
        with 1%nat by reflexivity. lia.
    + intros k' Hin.
      repeat (apply elem_of_cons in Hin as [Hin | Hin]; try discriminate Hin).
      * injection Hin as ->. split; assumption.
      * exfalso. eapply not_elem_of_nil; eassumption.
    + intros k' kw Hin.
      repeat (apply elem_of_cons in Hin as [Hin | Hin]; try discriminate Hin).
      * injection Hin as -> ->. split; [assumption | ].
        exists P. split; reflexivity.
      * exfalso. eapply not_elem_of_nil; eassumption.
Qed.

(** X4: the exit status is 0 or 1, and it is 0 exactly when a prompt was
    given, the credential is a non-empty string, the service answered with
    a text block in first place, and standard output can encode the text
    of that block. *)
Theorem success_exactly_when create codec stack_text env argv :
  (status (process create codec stack_text env argv) = 0%Z <->
   exists a0 P rest k m t bs,
     argv = a0 :: P :: rest /\ env !! KEY = Some k /\ k <> "" /\
     create k (request P) = inr m /\ content m = TextBlock t :: bs /\
     encode_error codec t = None) /\
  (status (process create codec stack_text env argv) = 0%Z \/
   status (process create codec stack_text env argv) = 1%Z).
Proof.
  split.
  - split.
    + destruct (process_cases create codec stack_text env argv)
        as [[_ ->] | [(e & evs & _ & ->) | Hok]];
        [discriminate | discriminate | ].
      destruct Hok as (a0 & P & rest & k & m & t & bs &
                       Hargv & Hk & Hne & Hm & Hc & Henc & _).
      intros _. exists a0, P, rest, k, m, t, bs. auto 10.
    + intros (a0 & P & rest & k & m & t & bs &
              -> & Hk & Hne & Hm & Hc & Henc).
      rewrite (process_key create codec stack_text env a0 P rest k Hk Hne).
      rewrite Hm. unfold extract. rewrite Hc.
      unfold answered. rewrite Henc. reflexivity.
  - destruct (process_cases create codec stack_text env argv)
      as [[_ ->] | [(e & evs & _ & ->) | Hok]];
      [right; reflexivity | right; reflexivity | ].
    destruct Hok as (a0 & P & rest & k & m & t & bs & _ & _ & _ & _ & _ & _ & ->).
    left. reflexivity.
Qed.

(** X5: [generate_code] writes nothing to standard output. Called in any
    world, it leaves standard output as it was and returns what a call in
    a fresh world with the same environment returns; it only adds
    interactions after those already made: the read of the credential
    first, three interactions at most, and at most one call of the
    service. *)
Theorem generate_code_frame create P w :
  stdout (snd (generate_code create P w)) = stdout w /\
  fst (generate_code create P w) = fst (run create (environ w) P) /\
  exists evs : list event,
    log (snd (generate_code create P w)) = (log w ++ evs)%list /\
    head evs = Some (EnvGet "ANTHROPIC_API_KEY") /\
    (length evs <= 3)%nat /\ (calls evs <= 1)%nat.
Proof.
  rewrite generate_code_any_world. cbn [fst snd stdout log].
  repeat split.
  exists (log (snd (run create (environ w) P))). split; [reflexivity | ].
  unfold run.
  destruct (key_cases (environ w)) as [[Hno | Hno] | (k & Hk & Hne)].
  - rewrite (generate_code_unset create _ P Hno). cbn [snd logged log].
    rewrite calls_env_only. cbn. repeat split; lia.
  - rewrite (generate_code_empty create _ P Hno). cbn [snd logged log].
    rewrite calls_env_only. cbn. repeat split; lia.
  - rewrite (generate_code_set create _ P k Hk Hne). cbn [snd logged log].
    rewrite calls_delegation. cbn. repeat split; lia.
Qed.

(** X6: the name the program was started under plays no part. Two
    argument lists that differ only in their first element give the same
    standard output, exit status and interactions; the usage message names
    claude_client.py whatever the program was called. *)
Theorem program_name_ignored create codec stack_text env a0 a0' rest :
  out (process create codec stack_text env (a0 :: rest))
    = out (process create codec stack_text env (a0' :: rest)) /\
  status (process create codec stack_text env (a0 :: rest))
    = status (process create codec stack_text env (a0' :: rest)) /\
  events (process create codec stack_text env (a0 :: rest))
    = events (process create codec stack_text env (a0' :: rest)) /\
  out (process create codec stack_text env [a0])
    = "Usage: claude_client.py <prompt>" +:+ nl.
Proof.
  rewrite (process_usage create codec stack_text env [a0]) by (cbn; lia).
  destruct rest as [ | P rest].
  - rewrite !(process_usage create codec stack_text env [_]) by (cbn; lia).
    repeat split; reflexivity.
  - unfold process. rewrite !main_prompt.
    destruct ((code <- generate_code create P ;; print codec code)
                (start env)) as [[e | u] w]; [destruct e | ];
      repeat split; reflexivity.
Qed.

(** X7: [generate_code] keeps nothing between calls. When a first call
    succeeds, a second call reads the credential again, builds its own
    client and sends its own request; its result stands beside the first
    one, and nothing is printed. *)
Theorem generate_twice_independent create env P Q k m t bs :
  env !! KEY = Some k -> k <> "" ->
  create k (request P) = inr m -> content m = TextBlock t :: bs ->
  fst (generate_twice create P Q (start env))
    = match fst (run create env Q) with
      | inl e => inl e
      | inr u => inr (t, u)
      end /\
  log (snd (generate_twice create P Q (start env)))
    = [ EnvGet KEY; NewClient k; MessagesCreate k (request P);
        EnvGet KEY; NewClient k; MessagesCreate k (request Q) ] /\
  stdout (snd (generate_twice create P Q (start env))) = "" /\
  stderr (snd (generate_twice create P Q (start env))) = "".
Proof.
  intros Henv Hk Hcreate Hcontent.
  assert (Hfirst : extract (create k (request P)) = inr t).
  { rewrite Hcreate. unfold extract. rewrite Hcontent. reflexivity. }
  unfold generate_twice, bind.
  rewrite (generate_code_set create env P k Henv Hk), Hfirst.
  rewrite generate_code_any_world. cbn [logged environ stdout stderr log].
  unfold run. rewrite (generate_code_set create env Q k Henv Hk).
  cbn [fst snd logged log].
  destruct (extract (create k (request Q))) as [e | u];
    repeat split; reflexivity.
Qed.

Lemma generate_twice_independent_witness :
  fst (generate_twice haiku_service "write a haiku" "" (start test_env))
    = match fst (run haiku_service test_env "") with
      | inl e => inl e
      | inr u => inr ("lines of code at rest", u)
      end /\
  log (snd (generate_twice haiku_service "write a haiku" "" (start test_env)))
    = [ EnvGet KEY; NewClient "sk-test";
        MessagesCreate "sk-test" (request "write a haiku");
        EnvGet KEY; NewClient "sk-test";
        MessagesCreate "sk-test" (request "") ] /\
  stdout (snd (generate_twice haiku_service "write a haiku" ""
                 (start test_env))) = "" /\
  stderr (snd (generate_twice haiku_service "write a haiku" ""
                 (start test_env))) = "".
Proof.
  apply (generate_twice_independent haiku_service test_env "write a haiku" ""
           "sk-test" {| content := [TextBlock "lines of code at rest"] |}
           "lines of code at rest" []).
  - exact test_env_key.
  - discriminate.
  - reflexivity.
  - reflexivity.
Defined.

(** X8: the prompt shows on standard output only through the answer of
    the service. For two prompts whose requests the service answers alike,
    in any environment and whatever the other arguments, the process
    writes the same to standard output and ends with the same status. *)
Theorem prompt_not_echoed create codec stack_text env a0 b0 P Q rest rest' :
  (forall k, create k (request P) = create k (request Q)) ->
  out (process create codec stack_text env (a0 :: P :: rest))
    = out (process create codec stack_text env (b0 :: Q :: rest')) /\
  status (process create codec stack_text env (a0 :: P :: rest))
    = status (process create codec stack_text env (b0 :: Q :: rest')).
Proof.
  intros Hsame.
  destruct (key_cases env) as [Hno | (k & Hk & Hne)].
  - rewrite !(process_no_key create codec stack_text env _ _ _ Hno).
    repeat split; reflexivity.
  - rewrite !(process_key create codec stack_text env _ _ _ k Hk Hne).
    rewrite (Hsame k). unfold answered.
    destruct (extract (create k (request Q))) as [e | t];
      [ | destruct (encode_error codec t)]; repeat split; reflexivity.
Qed.

Lemma prompt_not_echoed_witness :
  out (process haiku_service full_codec bare_stack test_env
         ["claude_client.py"; "write a haiku"])
    = out (process haiku_service full_codec bare_stack test_env
             ["./claude_client.py"; "write a sonnet"; "--verbose"]) /\
  status (process haiku_service full_codec bare_stack test_env
            ["claude_client.py"; "write a haiku"])
    = status (process haiku_service full_codec bare_stack test_env
                ["./claude_client.py"; "write a sonnet"; "--verbose"]).
Proof.
  apply (prompt_not_echoed haiku_service full_codec bare_stack test_env
           "claude_client.py" "./claude_client.py"
           "write a haiku" "write a sonnet" [] ["--verbose"]).
  intros k. reflexivity.
Defined.
